(** * Ambient declarations of DefinitelyTyped: three fragments

    The sources are declaration files and one expectation test.  Nothing
    in them runs; what they fix is (a) which members every interface
    declares, with which type and whether optional, (b) which interface
    extends which, and (c) which expressions the test writes and
    which type it expects of each.

    The embedding keeps the declarations as data, in source order, and
    gives them their meaning through the structural assignability
    relation of TypeScript under [strictNullChecks] and
    [strictFunctionTypes] (the settings of DefinitelyTyped), restricted
    to the type formers the declarations use.  A function type has
    required, optional and rest parameters and one signature; overloads,
    type parameters and the special comparison of parameters that are
    themselves callbacks are left out, none of which the declarations
    use.  The check of excess properties on fresh object literals is
    not part of assignability and is left out. *)

From Stdlib Require Import String List Bool Arith Lia.
Import ListNotations.
Open Scope string_scope.
Open Scope list_scope.

Set Warnings "-register-all".

(** ** Types *)

(** [TRef] names a declaration that lives outside the embedded files
    (React, the DOM, the scripting base library) or a class of the
    embedded file, whose instance type is nominal for our purposes.
    [TIndex p v] is the object type [{ [key: `${p}${string}`]: v }].
    [TSig req opt rest ret] is the function type whose parameters are
    the required [req], then the optional [opt], then, if any, a rest
    parameter of element type [rest]. *)
Inductive ty : Type :=
| TAny
| TNever
| TVoid
| TUndefined
| TNull
| TNumber
| TString
| TBoolean
| TLit (s : string)
| TUnion (a b : ty)
| TInter (a b : ty)
| TSig (required optional : list ty) (rest : option ty) (ret : ty)
| TObj (members : list (string * (bool * ty)))
| TIndex (prefix : string) (v : ty)
| TRef (name : string) (args : list ty).

(** [(p1: t1, ..., pn: tn) => ret], all parameters required: the only
    shape of function type the declarations write. *)
Abbreviation TFun params ret := (TSig params [] None ret).

(** A member of an interface or object type: name, optional?, type. *)
Definition member : Type := string * (bool * ty).

Definition m_name (m : member) : string := fst m.
Definition m_optional (m : member) : bool := fst (snd m).
Definition m_type (m : member) : ty := snd (snd m).

(** [name: t] and [name?: t]. *)
Definition req (n : string) (t : ty) : member := (n, (false, t)).
Definition opt (n : string) (t : ty) : member := (n, (true, t)).

(** Property lookup by name; the first declaration wins. *)
Fixpoint lookup (n : string) (ms : list member) : option (bool * ty) :=
  match ms with
  | [] => None
  | (k, v) :: rest => if String.eqb n k then Some v else lookup n rest
  end.

(** The type read from a property: an optional property may hold
    [undefined]. *)
Definition read_type (o : bool) (t : ty) : ty :=
  if o then TUnion t TUndefined else t.

Fixpoint size (t : ty) : nat :=
  match t with
  | TUnion a b | TInter a b => 1 + size a + size b
  | TSig req opt rest r =>
      1 + list_sum (map size req)
        + list_sum (map (fun u => 3 + size u) opt)
        + match rest with Some e => size e | None => 0 end
        + size r
  | TObj ms => 1 + list_sum (map (fun m : member => let '(_, (_, u)) := m in 3 + size u) ms)
  | TIndex _ v => 1 + size v
  | TRef _ args => 1 + list_sum (map size args)
  | _ => 1
  end.

(** ** Library declarations

    What the embedded files import but do not declare: the members of
    library interfaces named in [extends] clauses, and assignability
    between types of which one is a library reference. *)
Record library : Type := {
  lib_members : string -> list ty -> list member;
  lib_assignable : ty -> ty -> bool
}.

(** ** Assignability *)

Section Assignability.

Variable L : library.

(** Primitive against primitive. *)
Definition prim_assignable (s t : ty) : bool :=
  match s, t with
  | TVoid, TVoid => true
  | TUndefined, TUndefined => true
  | TUndefined, TVoid => true
  | TNull, TNull => true
  | TNumber, TNumber => true
  | TString, TString => true
  | TBoolean, TBoolean => true
  | TLit a, TLit b => String.eqb a b
  | TLit _, TString => true
  | _, _ => false
  end.

Section Step.

(** The comparison of the components. *)
Variable rec : ty -> ty -> bool.

(** The type of the parameter at position [i], if the signature has
    one: a required parameter, an optional one, which may hold
    [undefined], or the element of the rest parameter. *)
Definition type_at (req opt : list ty) (rest : option ty) (i : nat) : option ty :=
  match nth_error req i with
  | Some t => Some t
  | None =>
      match nth_error opt (i - length req) with
      | Some t => Some (read_type true t)
      | None => rest
      end
  end.

Definition param_count (req opt : list ty) (rest : option ty) : nat :=
  length req + length opt + match rest with Some _ => 1 | None => 0 end.

(** The source must not require more arguments than the target can be
    given, unless the target has a rest parameter. *)
Definition arity_ok (sreq treq topt : list ty) (trest : option ty) : bool :=
  match trest with
  | Some _ => true
  | None => Nat.leb (length sreq) (length treq + length topt)
  end.

(** Where both signatures have a parameter, the target's must be
    assignable to the source's. *)
Definition position_ok (s t : option ty) : bool :=
  match s, t with
  | Some s', Some t' => rec t' s'
  | _, _ => true
  end.

Definition params_ok (sreq sopt : list ty) (srest : option ty)
           (treq topt : list ty) (trest : option ty) : bool :=
  arity_ok sreq treq topt trest
  && forallb (fun i => position_ok (type_at sreq sopt srest i)
                                   (type_at treq topt trest i))
             (seq 0 (Nat.max (param_count sreq sopt srest)
                             (param_count treq topt trest))).

(** Between signatures whose parameters are all required this is the
    comparison of the parameters in pairs, the source having no more of
    them than the target ([params_ok_required] below). *)
Fixpoint required_params_ok (sp tp : list ty) : bool :=
  match sp, tp with
  | [], _ => true
  | _ :: _, [] => false
  | s :: sp', t :: tp' => rec t s && required_params_ok sp' tp'
  end.

(** A return type is not looked at when the target returns [void]. *)
Definition return_ok (sr tr : ty) : bool :=
  match tr with
  | TVoid => true
  | _ => rec sr tr
  end.

(** One target member against the source members: a missing
    property must be optional in the target; a present one must not
    be optional where the target requires it, and its type must be
    assignable. *)
Definition member_ok (sm : list member) (m : member) : bool :=
  let '(n, (topt, dt)) := m in
  match lookup n sm with
  | None => topt
  | Some (sopt, st) =>
      implb sopt topt && rec (read_type sopt st) (read_type topt dt)
  end.

(** A weak type declares at least one property and only optional
    ones; a source with properties of its own must then share one
    with it. *)
Definition weak (tm : list member) : bool :=
  match tm with
  | [] => false
  | _ :: _ => forallb m_optional tm
  end.

Definition shares (sm tm : list member) : bool :=
  existsb (fun m : member =>
             match lookup (m_name m) sm with Some _ => true | None => false end) tm.

Definition weak_ok (sm tm : list member) : bool :=
  match sm with
  | [] => true
  | _ :: _ => negb (weak tm) || shares sm tm
  end.

(** The rules, in the order the checker tries them: [any] and [never];
    a source union, member by member; a target union, some member; a
    target intersection, every member; whatever involves a library
    reference, an index signature or a source intersection is the
    library's to decide; then functions, objects and primitives.  A
    primitive or a function against an object type goes through its
    apparent type ([String], [Function], ...), which the library
    declares. *)
Definition assignable_step (s t : ty) : bool :=
  match s, t with
  | TAny, TNever => false
  | TAny, _ => true
  | _, TAny => true
  | TNever, _ => true
  | TUnion a b, _ => rec a t && rec b t
  | _, TUnion a b => rec s a || rec s b
  | _, TInter a b => rec s a && rec s b
  | TInter _ _, _ => lib_assignable L s t
  | TRef _ _, _ => lib_assignable L s t
  | TIndex _ _, _ => lib_assignable L s t
  | _, TRef _ _ => lib_assignable L s t
  | _, TIndex _ _ => lib_assignable L s t
  | TSig sq so sx sr, TSig tq to tx tr =>
      params_ok sq so sx tq to tx && return_ok sr tr
  | TObj sm, TObj tm => weak_ok sm tm && forallb (member_ok sm) tm
  | TObj _, _ => false
  | TVoid, TObj _ | TUndefined, TObj _ | TNull, TObj _ => false
  | _, TObj _ => lib_assignable L s t
  | TSig _ _ _ _, _ => false
  | _, TSig _ _ _ _ => false
  | _, _ => prim_assignable s t
  end.

End Step.

Fixpoint assignable_n (n : nat) : ty -> ty -> bool :=
  match n with
  | O => fun _ _ => false
  | S n' => assignable_step (assignable_n n')
  end.

(** Every comparison of components is on a smaller pair, so the sum
    of the sizes is enough ([assignable_unfold] below). *)
Definition assignable (s t : ty) : bool :=
  assignable_n (size s + size t) s t.

End Assignability.

(** ** Interfaces *)

Record interface : Type := {
  i_name : string;
  i_extends : list ty;
  i_own : list member
}.

(** The members an [extends] clause brings in: those of a library
    interface, or those of an interface of the same file, which is
    referred to by its structure. *)
Definition heritage (L : library) (t : ty) : list member :=
  match t with
  | TRef n args => lib_members L n args
  | TObj ms => ms
  | _ => []
  end.

Definition members (L : library) (i : interface) : list member :=
  i_own i ++ flat_map (heritage L) (i_extends i).

Definition iface_type (L : library) (i : interface) : ty :=
  TObj (members L i).

(** An interface none of whose ancestors is a library interface has a
    structure of its own. *)
Definition local_members (i : interface) : list member :=
  i_own i ++ flat_map (fun t => match t with TObj ms => ms | _ => [] end) (i_extends i).

Definition local_type (i : interface) : ty := TObj (local_members i).

(** A type satisfies an interface when it is assignable to it. *)
Definition conforms (L : library) (s : ty) (i : interface) : bool :=
  assignable L s (iface_type L i).

(** What one declared member asks of an object type with members [sm]. *)
Definition provides (L : library) (sm : list member) (m : member) : bool :=
  member_ok (assignable L) sm m.

(** A class of the declaration file: [class c_name extends c_base<c_targs>]. *)
Record class_decl : Type := {
  c_name : string;
  c_base : string;
  c_targs : list interface
}.

Infix ":|:" := TUnion (at level 60, right associativity).

(** ** google-ads-scripts: the account snippet fragment *)

Module GoogleAdsScripts.
Module AdsApp.

Definition AccountSnippet : interface :=
  {| i_name := "AccountSnippet";
     i_extends := [TRef "Snippet" []];
     i_own := [] |}.

Definition AccountSnippetIterator : interface :=
  {| i_name := "AccountSnippetIterator";
     i_extends := [TRef "Base.Iterator" [TRef "AccountSnippet" []]];
     i_own := [] |}.

Definition AccountSnippetSelector : interface :=
  {| i_name := "AccountSnippetSelector";
     i_extends :=
       [ TRef "Base.Selector" [TRef "AccountSnippetIterator" []];
         TRef "Base.SelectorForDateRange" [];
         TRef "Base.SelectorOrderBy" [];
         TRef "Base.SelectorWithCondition" [];
         TRef "Base.SelectorWithLimit" [] ];
     i_own := [] |}.

(** The name of the interface an [extends] clause refers to. *)
Definition ref_name (t : ty) : string :=
  match t with
  | TRef n _ => n
  | _ => EmptyString
  end.

(** The capability interfaces the fragment names. *)
Definition capabilities : list string :=
  map ref_name (i_extends AccountSnippetIterator ++ i_extends AccountSnippetSelector).

End AdsApp.
End GoogleAdsScripts.

(** ** fixed-data-table-2 *)

Module FixedDataTable.

(** Names of React and of the DOM. *)
Definition ReactNode : ty := TRef "React.ReactNode" [].
Definition ReactElement : ty := TRef "React.ReactElement" [].
Definition SyntheticEvent (t : ty) : ty := TRef "React.SyntheticEvent" [t].
Definition HTMLAttributes (t : ty) : ty := TRef "React.HTMLAttributes" [t].
Definition ClassAttributes (t : ty) : ty := TRef "React.ClassAttributes" [t].
Definition HTMLElement : ty := TRef "HTMLElement" [].

(** Instance types of the classes declared below. *)
Definition TableT : ty := TRef "Table" [].
Definition ColumnT : ty := TRef "Column" [].
Definition ColumnGroupT : ty := TRef "ColumnGroup" [].
Definition CellT : ty := TRef "Cell" [].
Definition ResizeCellT : ty := TRef "Plugins.ResizeCell" [].
Definition ReorderCellT : ty := TRef "Plugins.ReorderCell" [].

Definition RowProps : interface :=
  {| i_name := "RowProps";
     i_extends := [];
     i_own := [ req "rowIndex" TNumber;
                req "height" TNumber;
                req "width" TNumber ] |}.

Definition ColumnReorderEndEvent : interface :=
  {| i_name := "ColumnReorderEndEvent";
     i_extends := [];
     i_own := [ opt "columnBefore" (TString :|: TUndefined);
                opt "columnAfter" (TString :|: TUndefined);
                req "reorderColumn" TString ] |}.

Definition ElementOrFunc (P : ty) : ty :=
  TString :|: ReactElement :|: TFun [P] (TString :|: ReactElement).

Definition TableRowEventHandler : ty :=
  TFun [SyntheticEvent TableT; TNumber] TVoid.

Definition AttributesGetterReturn : ty :=
  TInter (HTMLAttributes HTMLElement) (TIndex "data-" (TString :|: TUndefined)).

Definition TableProps : interface :=
  {| i_name := "TableProps";
     i_extends := [ClassAttributes TableT];
     i_own :=
       [ opt "children" ReactNode;
         req "width" TNumber;
         opt "height" (TNumber :|: TUndefined);
         opt "className" (TString :|: TUndefined);
         opt "maxHeight" (TNumber :|: TUndefined);
         opt "ownerHeight" (TNumber :|: TUndefined);
         opt "overflowX" (TLit "hidden" :|: TLit "auto" :|: TUndefined);
         opt "overflowY" (TLit "hidden" :|: TLit "auto" :|: TUndefined);
         opt "touchScrollEnabled" (TBoolean :|: TUndefined);
         opt "keyboardScrollEnabled" (TBoolean :|: TUndefined);
         opt "keyboardPageEnabled" (TBoolean :|: TUndefined);
         opt "showScrollbarX" (TBoolean :|: TUndefined);
         opt "showScrollbarY" (TBoolean :|: TUndefined);
         opt "onHorizontalScroll" (TFun [TNumber] TBoolean :|: TUndefined);
         opt "onVerticalScroll" (TFun [TNumber] TBoolean :|: TUndefined);
         req "rowsCount" TNumber;
         req "rowHeight" TNumber;
         opt "rowHeightGetter" (TFun [TNumber] TNumber :|: TUndefined);
         opt "subRowHeight" (TNumber :|: TUndefined);
         opt "subRowHeightGetter" (TFun [TNumber] TNumber :|: TUndefined);
         opt "rowExpanded" (ElementOrFunc (local_type RowProps) :|: TUndefined);
         opt "rowAttributesGetter" (TFun [TNumber] AttributesGetterReturn :|: TUndefined);
         opt "rowClassNameGetter" (TFun [TNumber] TString :|: TUndefined);
         opt "rowKeyGetter" (TFun [TNumber] TString :|: TUndefined);
         opt "gridAttributesGetter" (TFun [] AttributesGetterReturn :|: TUndefined);
         opt "groupHeaderHeight" (TNumber :|: TUndefined);
         req "headerHeight" TNumber;
         opt "cellGroupWrapperHeight" (TNumber :|: TUndefined);
         opt "footerHeight" (TNumber :|: TUndefined);
         opt "scrollLeft" (TNumber :|: TUndefined);
         opt "scrollToColumn" (TNumber :|: TUndefined);
         opt "scrollTop" (TNumber :|: TUndefined);
         opt "scrollToRow" (TNumber :|: TUndefined);
         opt "onScrollStart" (TFun [TNumber; TNumber; TNumber; TNumber] TVoid :|: TUndefined);
         opt "onScrollEnd" (TFun [TNumber; TNumber; TNumber; TNumber] TVoid :|: TUndefined);
         opt "stopScrollPropagation" (TBoolean :|: TUndefined);
         opt "onContentHeightChange" (TFun [TNumber] TVoid :|: TUndefined);
         opt "onRowClick" (TableRowEventHandler :|: TUndefined);
         opt "onRowContextMenu" (TableRowEventHandler :|: TUndefined);
         opt "onRowDoubleClick" (TableRowEventHandler :|: TUndefined);
         opt "onRowMouseDown" (TableRowEventHandler :|: TUndefined);
         opt "onRowMouseUp" (TableRowEventHandler :|: TUndefined);
         opt "onRowMouseEnter" (TableRowEventHandler :|: TUndefined);
         opt "onRowMouseLeave" (TableRowEventHandler :|: TUndefined);
         opt "onRowTouchStart" (TableRowEventHandler :|: TUndefined);
         opt "onRowTouchEnd" (TableRowEventHandler :|: TUndefined);
         opt "onRowTouchMove" (TableRowEventHandler :|: TUndefined);
         opt "onColumnResizeEndCallback" (TFun [TNumber; TString] TVoid :|: TUndefined);
         opt "onColumnReorderEndCallback"
             (TFun [local_type ColumnReorderEndEvent] TVoid :|: TUndefined);
         opt "isColumnResizing" (TBoolean :|: TUndefined);
         opt "isColumnReordering" (TBoolean :|: TUndefined);
         opt "bufferRowCount" (TNumber :|: TUndefined) ] |}.

Definition Table : class_decl :=
  {| c_name := "Table"; c_base := "React.Component"; c_targs := [TableProps] |}.

Definition ColumnHeaderProps : interface :=
  {| i_name := "ColumnHeaderProps";
     i_extends := [];
     i_own := [ opt "columnKey" (TString :|: TUndefined);
                req "height" TNumber;
                req "width" TNumber ] |}.

Definition ColumnCellProps : interface :=
  {| i_name := "ColumnCellProps";
     i_extends := [local_type ColumnHeaderProps];
     i_own := [ req "rowIndex" TNumber ] |}.

Definition ColumnProps : interface :=
  {| i_name := "ColumnProps";
     i_extends := [ClassAttributes ColumnT];
     i_own :=
       [ opt "align" (TLit "left" :|: TLit "center" :|: TLit "right" :|: TUndefined);
         opt "fixed" (TBoolean :|: TUndefined);
         opt "fixedRight" (TBoolean :|: TUndefined);
         opt "header" (ElementOrFunc (local_type ColumnHeaderProps) :|: TUndefined);
         opt "cell" (ElementOrFunc (local_type ColumnCellProps) :|: TUndefined);
         opt "footer" (ElementOrFunc (local_type ColumnHeaderProps) :|: TUndefined);
         opt "columnKey" (TString :|: TNumber :|: TUndefined);
         req "width" TNumber;
         opt "minWidth" (TNumber :|: TUndefined);
         opt "maxWidth" (TNumber :|: TUndefined);
         opt "flexGrow" (TNumber :|: TUndefined);
         opt "isResizable" (TBoolean :|: TUndefined);
         opt "isReorderable" (TBoolean :|: TUndefined);
         opt "allowCellsRecycling" (TBoolean :|: TUndefined);
         opt "pureRendering" (TBoolean :|: TUndefined);
         opt "cellClassName" (TString :|: TUndefined) ] |}.

Definition Column : class_decl :=
  {| c_name := "Column"; c_base := "React.Component"; c_targs := [ColumnProps] |}.

Definition ColumnGroupHeaderProps : interface :=
  {| i_name := "ColumnGroupHeaderProps";
     i_extends := [];
     i_own := [ req "height" TNumber;
                req "width" TNumber ] |}.

Definition ColumnGroupProps : interface :=
  {| i_name := "ColumnGroupProps";
     i_extends := [ClassAttributes ColumnGroupT];
     i_own :=
       [ opt "children" ReactNode;
         opt "align" (TLit "left" :|: TLit "center" :|: TLit "right" :|: TUndefined);
         opt "fixed" (TBoolean :|: TUndefined);
         opt "header"
             (TString :|: ReactElement
              :|: TFun [local_type ColumnGroupHeaderProps] (TString :|: ReactElement)
              :|: TUndefined);
         opt "cellClassName" (TString :|: TUndefined) ] |}.

Definition ColumnGroup : class_decl :=
  {| c_name := "ColumnGroup"; c_base := "React.Component"; c_targs := [ColumnGroupProps] |}.

Definition CellProps : interface :=
  {| i_name := "CellProps";
     i_extends := [HTMLAttributes CellT];
     i_own :=
       [ opt "height" (TNumber :|: TUndefined);
         opt "width" (TNumber :|: TUndefined);
         opt "columnKey" (TString :|: TNumber :|: TUndefined);
         opt "rowIndex" (TNumber :|: TUndefined) ] |}.

Definition Cell : class_decl :=
  {| c_name := "Cell"; c_base := "React.Component"; c_targs := [CellProps] |}.

Module Plugins.

Definition ResizeCellProps : interface :=
  {| i_name := "Plugins.ResizeCellProps";
     i_extends := [HTMLAttributes ResizeCellT];
     i_own :=
       [ opt "columnKey" (TString :|: TNumber);
         opt "minWidth" TNumber;
         opt "maxWidth" TNumber;
         opt "width" TNumber;
         opt "touchEnabled" TBoolean;
         opt "isRTL" TBoolean;
         req "onColumnResizeEnd" (TFun [TNumber; TString] TVoid);
         opt "height" TNumber ] |}.

Definition ResizeCell : class_decl :=
  {| c_name := "Plugins.ResizeCell"; c_base := "React.Component";
     c_targs := [ResizeCellProps] |}.

(** The argument of [onColumnReorderEnd], declared in place. *)
Definition ReorderEndArgument : ty :=
  TObj [ req "columnBefore" TString;
         req "columnAfter" TString;
         req "reorderColumn" TString ].

Definition ReorderCellProps : interface :=
  {| i_name := "Plugins.ReorderCellProps";
     i_extends := [HTMLAttributes ReorderCellT];
     i_own :=
       [ opt "height" TNumber;
         opt "width" TNumber;
         opt "columnKey" (TString :|: TNumber);
         opt "rowIndex" TNumber;
         opt "left" TNumber;
         opt "touchEnabled" TBoolean;
         opt "minWidth" TNumber;
         opt "maxWidth" TNumber;
         opt "onColumnReorderStart" (TFun [TString] TVoid);
         req "onColumnReorderEnd" (TFun [ReorderEndArgument] TVoid) ] |}.

Definition ReorderCell : class_decl :=
  {| c_name := "Plugins.ReorderCell"; c_base := "React.Component";
     c_targs := [ReorderCellProps] |}.

End Plugins.

(** Every class the file declares, in source order. *)
Definition classes : list class_decl :=
  [ Table; Column; ColumnGroup; Cell; Plugins.ResizeCell; Plugins.ReorderCell ].

(** The properties interfaces of the components. *)
Definition props_interfaces : list interface :=
  [ TableProps; ColumnProps; ColumnGroupProps; CellProps;
    Plugins.ResizeCellProps; Plugins.ReorderCellProps ].

(** A member that can hold a function. *)
Fixpoint callable (t : ty) : bool :=
  match t with
  | TSig _ _ _ _ => true
  | TUnion a b => callable a || callable b
  | _ => false
  end.

Definition callbacks (i : interface) : list member :=
  filter (fun m => callable (m_type m)) (i_own i).

End FixedDataTable.

(** ** nginstack orm: the expectation test of [Entity] *)

Module EntityTest.

(** Expressions and statements, as far as the test uses them. *)
Inductive expr : Type :=
| EId (x : string)
| ENum (n : nat)
| EStr (s : string)
| EObj (fields : list (string * expr))
| ENew (c : string) (args : list expr)
| EProp (e : expr) (p : string)
| ECall (f : expr) (args : list expr).

(** [expect] is the text after [$ExpectType], when the line has one. *)
Inductive stmt : Type :=
| SImport (x : string) (from : string)
| SConst (x : string) (init : expr) (expect : option string)
| SExpr (e : expr) (expect : option string)
| SFunction (f : string) (params : list ty) (ret : ty) (body : expr).

Definition entity_test : list stmt :=
  [ SImport "DataSet" "@nginstack/engine/lib/dataset/DataSet";
    SImport "Entity" "@nginstack/orm/lib/Entity";
    SConst "entity" (ENew "Entity" [ENum 1; ENew "DataSet" []]) (Some "Entity");
    SExpr (EProp (EId "entity") "key") (Some "number");
    SExpr (EProp (EId "entity") "classKey") (Some "number");
    SExpr (EProp (EId "entity") "autoPersist") (Some "boolean");
    SExpr (EProp (EId "entity") "postPending") (Some "boolean");
    SExpr (ECall (EProp (EId "entity") "set") [EStr "name"; EStr "value"]) (Some "void");
    SExpr (ECall (EProp (EId "entity") "get") [EStr "*"]) (Some "any");
    SExpr (ECall (EProp (EId "entity") "assign") [EObj []]) (Some "void");
    SExpr (ECall (EProp (EId "entity") "edit") []) (Some "void");
    SExpr (ECall (EProp (EId "entity") "cancel") []) (Some "void");
    SExpr (ECall (EProp (EId "entity") "post") []) (Some "void");
    SExpr (ECall (EProp (EId "entity") "delete") []) (Some "void");
    SExpr (ECall (EProp (EId "entity") "bindDataSet") [ENew "DataSet" []]) (Some "void");
    SExpr (ECall (EProp (EId "entity") "clone") []) (Some "Entity");
    SExpr (ECall (EProp (EId "entity") "persist") []) (Some "number");
    SExpr (ECall (EProp (EId "entity") "toJSONString") []) (Some "string");
    SExpr (ECall (EProp (EId "entity") "toJSONSchema") []) (Some "any");
    SFunction "getVersion" [] TString (EStr "72.0.1");
    SExpr (ECall (EId "getVersion") []) (Some "string") ].

(** What a module exports with [export =]: a class, given by the types
    of its properties and the return types of its methods. *)
Record class_sig : Type := {
  k_name : string;
  k_props : list (string * ty);
  k_methods : list (string * ty)
}.

(** Modelled from the spec: the declaration of the class [Entity]
    ([@nginstack/orm/lib/Entity.d.ts] is not among the sources).  The
    spec names the type of [key] (number), of [post()] (void) and of
    [clone()] (the entity's own type); of the other thirteen members it
    says only that the type of each expression of the test is the one
    annotated beside it, and their entries below are those annotations.
    What is stated with them says what the test expects of the
    declaration, not what the declaration is. *)
Definition Entity : class_sig :=
  {| k_name := "Entity";
     k_props := [ ("key", TNumber); ("classKey", TNumber);
                  ("autoPersist", TBoolean); ("postPending", TBoolean) ];
     k_methods := [ ("set", TVoid); ("get", TAny); ("assign", TVoid);
                    ("edit", TVoid); ("cancel", TVoid); ("post", TVoid);
                    ("delete", TVoid); ("bindDataSet", TVoid);
                    ("clone", TRef "Entity" []); ("persist", TNumber);
                    ("toJSONString", TString); ("toJSONSchema", TAny) ] |}.

(** The text the checker prints for a type; function and object types
    are not printed here. *)
Fixpoint show (t : ty) : option string :=
  match t with
  | TAny => Some "any"
  | TNever => Some "never"
  | TVoid => Some "void"
  | TUndefined => Some "undefined"
  | TNull => Some "null"
  | TNumber => Some "number"
  | TString => Some "string"
  | TBoolean => Some "boolean"
  | TUnion a b =>
      match show a, show b with
      | Some x, Some y => Some (x ++ " | " ++ y)%string
      | _, _ => None
      end
  | TRef n [] => Some n
  | _ => None
  end.

(** Counting in the text of the test. *)
Fixpoint news (c : string) (e : expr) : nat :=
  match e with
  | ENew c' args =>
      (if String.eqb c c' then 1 else 0) + list_sum (map (news c) args)
  | EObj fs => list_sum (map (fun f => news c (snd f)) fs)
  | EProp e' _ => news c e'
  | ECall f args => news c f + list_sum (map (news c) args)
  | _ => 0
  end.

(** The methods invoked by an expression, in order of appearance. *)
Fixpoint invoked (e : expr) : list string :=
  match e with
  | ENew _ args => flat_map invoked args
  | EObj fs => flat_map (fun f => invoked (snd f)) fs
  | EProp e' _ => invoked e'
  | ECall f args =>
      match f with
      | EProp e' m => invoked e' ++ [m]
      | _ => invoked f
      end ++ flat_map invoked args
  | _ => []
  end.

Definition stmt_exprs (s : stmt) : list expr :=
  match s with
  | SConst _ e _ => [e]
  | SExpr e _ => [e]
  | SFunction _ _ _ body => [body]
  | SImport _ _ => []
  end.

Definition program_exprs (p : list stmt) : list expr := flat_map stmt_exprs p.

Definition invocations (m : string) (p : list stmt) : nat :=
  count_occ string_dec (flat_map invoked (program_exprs p)) m.

Definition instantiations (c : string) (p : list stmt) : nat :=
  list_sum (map (news c) (program_exprs p)).

(** The statements that invoke [m], with their expectation. *)
Definition expectations_on (m : string) (p : list stmt) : list (option string) :=
  flat_map (fun s =>
              match s with
              | SExpr e x | SConst _ e x =>
                  if in_dec string_dec m (invoked e) then [x] else []
              | _ => []
              end) p.

End EntityTest.

(** ** Conditions on the library and a library to run with *)

(** How a supplied property (optional?, type) stands against a declared
    one. *)
Definition field_ok (L : library) (v d : bool * ty) : bool :=
  implb (fst v) (fst d)
  && assignable L (read_type (fst v) (snd v)) (read_type (fst d) (snd d)).

Definition inherited (L : library) (i : interface) : list member :=
  flat_map (heritage L) (i_extends i).

Fixpoint distinct (l : list string) : bool :=
  match l with
  | [] => true
  | x :: rest => negb (existsb (String.eqb x) rest) && distinct rest
  end.

(** No property is declared twice, counting the inherited ones. *)
Definition single_declarations (L : library) (i : interface) : bool :=
  distinct (map m_name (members L i)).

(** The library interfaces [i] extends declare optional properties only. *)
Definition optional_heritage (L : library) (i : interface) : bool :=
  forallb m_optional (inherited L i).

(** The library interfaces [i] extends declare required properties only. *)
Definition required_heritage (L : library) (i : interface) : bool :=
  forallb (fun m => negb (m_optional m)) (inherited L i).

Definition required_names (ms : list member) : list string :=
  map m_name (filter (fun m => negb (m_optional m)) ms).

(** Every property the object supplies is declared by [i] and stands
    well against the declaration. *)
Definition supplied_ok (L : library) (i : interface) (sm : list member) : bool :=
  forallb (fun m : member =>
             match lookup (m_name m) (members L i) with
             | Some d => field_ok L (snd m) d
             | None => false
             end) sm.

(** Every required property of [i] is supplied by the object. *)
Definition required_supplied (L : library) (i : interface) (sm : list member) : bool :=
  forallb (fun m : member =>
             m_optional m
             || match lookup (m_name m) sm with Some _ => true | None => false end)
          (members L i).



(** A library to evaluate the checker with.  [React.ClassAttributes]
    declares [key] and [ref], [React.HTMLAttributes] a few of the DOM
    attributes, all optional; the capability interfaces of the
    scripting base library declare methods.  Nothing is assignable to
    or from a library reference beyond what the rules give. *)
Definition sample_members (n : string) (args : list ty) : list member :=
  if String.eqb n "React.ClassAttributes" then
    [ opt "key" (TRef "React.Key" [] :|: TNull :|: TUndefined);
      opt "ref" (TRef "React.LegacyRef" args :|: TUndefined) ]
  else if String.eqb n "React.HTMLAttributes" then
    [ opt "className" (TString :|: TUndefined);
      opt "hidden" (TBoolean :|: TUndefined);
      opt "title" (TString :|: TUndefined) ]
  else if String.eqb n "Base.Iterator" then
    [ req "hasNext" (TFun [] TBoolean);
      req "next" (TFun [] (hd TAny args));
      req "totalNumEntities" (TFun [] TNumber) ]
  else if String.eqb n "Base.Selector" then
    [ req "get" (TFun [] (hd TAny args)) ]
  else if String.eqb n "Base.SelectorForDateRange" then
    [ req "forDateRange" (TFun [TString] (TRef "this" [])) ]
  else if String.eqb n "Base.SelectorOrderBy" then
    [ req "orderBy" (TFun [TString] (TRef "this" [])) ]
  else if String.eqb n "Base.SelectorWithCondition" then
    [ req "withCondition" (TFun [TString] (TRef "this" [])) ]
  else if String.eqb n "Base.SelectorWithLimit" then
    [ req "withLimit" (TFun [TNumber] (TRef "this" [])) ]
  else [].

Definition sample_library : library :=
  {| lib_members := sample_members;
     lib_assignable := fun _ _ => false |}.

(** An object with every method of the selector, returning [never]. *)
Definition sample_selector : list member :=
  [ req "get" (TFun [] TNever);
    req "forDateRange" (TFun [TString] TNever);
    req "orderBy" (TFun [TString] TNever);
    req "withCondition" (TFun [TString] TNever);
    req "withLimit" (TFun [TNumber] TNever) ].

(** The least a table can be given. *)
Definition minimal_table_props : list member :=
  [ req "width" TNumber;
    req "rowsCount" TNumber;
    req "rowHeight" TNumber;
    req "headerHeight" TNumber ].

(** * Properties *)

(** ** The fuel of [assignable] is enough *)

Lemma size_pos (t : ty) : 1 <= size t.
Proof. destruct t; simpl; lia. Qed.

Lemma size_in (x : ty) (l : list ty) :
  In x l -> size x <= list_sum (map size l).
Proof.
  induction l as [|y l IH]; simpl; intros H; [contradiction|].
  destruct H as [->|H]; [lia|]. specialize (IH H). lia.
Qed.

Lemma size_member_in (n : string) (o : bool) (u : ty) (ms : list member) :
  In (n, (o, u)) ms -> 3 + size u <= size (TObj ms).
Proof.
  simpl. induction ms as [|[k [p v]] ms IH]; simpl; intros H; [contradiction|].
  destruct H as [H|H]; [inversion H; subst; lia|]. specialize (IH H). lia.
Qed.

Lemma lookup_in (n : string) (ms : list member) (v : bool * ty) :
  lookup n ms = Some v -> In (n, v) ms.
Proof.
  induction ms as [|[k w] ms IH]; simpl; [discriminate|].
  destruct (String.eqb n k) eqn:E.
  - apply String.eqb_eq in E. intros H. inversion H; subst. now left.
  - intros H. right. now apply IH.
Qed.

Lemma size_read_type (o : bool) (t : ty) : size (read_type o t) <= 2 + size t.
Proof. destruct o; simpl; lia. Qed.

Lemma size_in_optional (x : ty) (l : list ty) :
  In x l -> 3 + size x <= list_sum (map (fun u => 3 + size u) l).
Proof.
  induction l as [|y l IH]; cbn [In map]; intros H; [contradiction|].
  change (3 + size x <= (3 + size y) + list_sum (map (fun u => 3 + size u) l)).
  destruct H as [->|H]; [lia|]. specialize (IH H). lia.
Qed.

(** The type of a parameter is smaller than the signature. *)
Lemma size_type_at (req opt : list ty) (rest : option ty) (ret : ty)
      (i : nat) (t : ty) :
  type_at req opt rest i = Some t ->
  size t + size ret < size (TSig req opt rest ret).
Proof.
  unfold type_at. cbn [size].
  destruct (nth_error req i) as [u|] eqn:Er.
  - intros E. inversion E; subst. apply nth_error_In, size_in in Er. lia.
  - destruct (nth_error opt (i - length req)) as [u|] eqn:Eo.
    + intros E. inversion E; subst.
      apply nth_error_In, size_in_optional in Eo. cbn [read_type size]. lia.
    + destruct rest as [e|]; intros E; inversion E; subst. lia.
Qed.

Section Fuel.

Variable L : library.

Lemma forallb_ext_in {A : Type} (f g : A -> bool) (l : list A) :
  (forall x, In x l -> f x = g x) -> forallb f l = forallb g l.
Proof.
  induction l as [|x l IH]; simpl; intros H; [reflexivity|].
  rewrite (H x) by (now left). f_equal. apply IH. intros y Hy. apply H. now right.
Qed.

Lemma params_ok_ext (r1 r2 : ty -> ty -> bool)
      (sq so : list ty) (sx : option ty) (tq to : list ty) (tx : option ty) :
  (forall i s t, type_at sq so sx i = Some s -> type_at tq to tx i = Some t ->
                 r1 t s = r2 t s) ->
  params_ok r1 sq so sx tq to tx = params_ok r2 sq so sx tq to tx.
Proof.
  intros H. unfold params_ok. f_equal. apply forallb_ext_in. intros i _.
  unfold position_ok.
  destruct (type_at sq so sx i) as [s|] eqn:Es; [|reflexivity].
  destruct (type_at tq to tx i) as [t|] eqn:Et; [|reflexivity].
  exact (H i s t Es Et).
Qed.

Lemma member_ok_ext (r1 r2 : ty -> ty -> bool) (sm tm : list member) (m : member) :
  In m tm ->
  (forall s t, size s + size t < size (TObj sm) + size (TObj tm) -> r1 s t = r2 s t) ->
  member_ok r1 sm m = member_ok r2 sm m.
Proof.
  destruct m as [n [topt dt]]. intros Hin H. unfold member_ok.
  destruct (lookup n sm) as [[sopt st]|] eqn:E; [|reflexivity].
  f_equal. apply H.
  apply lookup_in, size_member_in in E.
  apply size_member_in in Hin.
  pose proof (size_read_type sopt st). pose proof (size_read_type topt dt).
  lia.
Qed.

Lemma assignable_step_ext (r1 r2 : ty -> ty -> bool) (s t : ty) :
  (forall s' t', size s' + size t' < size s + size t -> r1 s' t' = r2 s' t') ->
  assignable_step L r1 s t = assignable_step L r2 s t.
Proof.
  intros H.
  assert (Hfun : forall sq so sx sr tq to tx tr,
            s = TSig sq so sx sr -> t = TSig tq to tx tr ->
            params_ok r1 sq so sx tq to tx && return_ok r1 sr tr
            = params_ok r2 sq so sx tq to tx && return_ok r2 sr tr).
  { intros sq so sx sr tq to tx tr -> ->. f_equal.
    - apply params_ok_ext. intros i s' t' Hs Ht. apply H.
      apply (size_type_at _ _ _ sr) in Hs. apply (size_type_at _ _ _ tr) in Ht.
      pose proof (size_pos sr). pose proof (size_pos tr). lia.
    - unfold return_ok. pose proof (size_pos sr).
      destruct tr; try reflexivity; apply H; simpl; lia. }
  assert (Hobj : forall sm tm, s = TObj sm -> t = TObj tm ->
            weak_ok sm tm && forallb (member_ok r1 sm) tm
            = weak_ok sm tm && forallb (member_ok r2 sm) tm).
  { intros sm tm -> ->. f_equal. apply forallb_ext_in. intros m Hm.
    apply member_ok_ext with (tm := tm); assumption. }
  pose proof (size_pos s) as Ps. pose proof (size_pos t) as Pt.
  destruct s; destruct t; simpl assignable_step; try reflexivity;
    try (apply Hfun; reflexivity); try (apply Hobj; reflexivity);
    simpl in H;
    repeat match goal with
           | |- context [r1 ?a ?b] => rewrite (H a b) by (simpl; lia)
           end;
    reflexivity.
Qed.

Lemma assignable_n_stable (n m : nat) (s t : ty) :
  size s + size t <= n -> size s + size t <= m ->
  assignable_n L n s t = assignable_n L m s t.
Proof.
  revert m s t. induction n as [|n IH]; intros m s t Hn Hm.
  - pose proof (size_pos s). lia.
  - destruct m as [|m]; [pose proof (size_pos s); lia|].
    simpl. apply assignable_step_ext. intros s' t' Hlt. apply IH; lia.
Qed.

(** [assignable] satisfies the equation of its rules. *)
Lemma assignable_unfold (s t : ty) :
  assignable L s t = assignable_step L (assignable L) s t.
Proof.
  unfold assignable at 1.
  pose proof (size_pos s) as Ps.
  destruct (size s + size t) as [|k] eqn:E; [lia|].
  simpl. apply assignable_step_ext. intros s' t' Hlt.
  unfold assignable. apply assignable_n_stable; lia.
Qed.

End Fuel.

(** ** Conformance of object types *)

Section Conformance.

Variable L : library.

Lemma assignable_obj (sm tm : list member) :
  assignable L (TObj sm) (TObj tm)
  = weak_ok sm tm && forallb (provides L sm) tm.
Proof. rewrite assignable_unfold. reflexivity. Qed.

Lemma conforms_obj (sm : list member) (i : interface) :
  conforms L (TObj sm) i
  = weak_ok sm (members L i) && forallb (provides L sm) (members L i).
Proof. apply assignable_obj. Qed.

Lemma provides_present (sm : list member) (n : string) (v d : bool * ty) :
  lookup n sm = Some v -> provides L sm (n, d) = field_ok L v d.
Proof.
  intros H. unfold provides, member_ok, field_ok.
  destruct d as [dopt dt]. rewrite H. destruct v as [o st]. reflexivity.
Qed.

Lemma provides_absent (sm : list member) (n : string) (d : bool * ty) :
  lookup n sm = None -> provides L sm (n, d) = fst d.
Proof.
  intros H. unfold provides, member_ok. destruct d as [dopt dt]. now rewrite H.
Qed.

(** One declared member that is not provided is enough to reject. *)
Lemma conforms_rejects (sm : list member) (i : interface) (m : member) :
  In m (members L i) -> provides L sm m = false ->
  conforms L (TObj sm) i = false.
Proof.
  intros Hin Hm. rewrite conforms_obj.
  destruct (forallb (provides L sm) (members L i)) eqn:E.
  - rewrite forallb_forall in E. rewrite (E m Hin) in Hm. discriminate.
  - apply andb_false_r.
Qed.

Lemma conforms_provides (sm : list member) (i : interface) (m : member) :
  conforms L (TObj sm) i = true -> In m (members L i) ->
  provides L sm m = true.
Proof.
  intros H Hin. destruct (provides L sm m) eqn:E; [reflexivity|].
  rewrite (conforms_rejects sm i m Hin E) in H. discriminate.
Qed.

End Conformance.

(** ** The expectation test of [Entity] *)

(** C7.  The test constructs one [Entity] and no more; the methods it
    invokes are [set], [get], [assign], [edit], [cancel], [post],
    [delete], [bindDataSet], [clone], [persist], [toJSONString] and
    [toJSONSchema], each exactly once; and the one statement invoking a
    method carries the expectation that prints the declared return type
    of that method. *)
Theorem entity_test_invokes_each_method_once :
  EntityTest.instantiations "Entity" EntityTest.entity_test = 1
  /\ flat_map EntityTest.invoked (EntityTest.program_exprs EntityTest.entity_test)
     = [ "set"; "get"; "assign"; "edit"; "cancel"; "post"; "delete";
         "bindDataSet"; "clone"; "persist"; "toJSONString"; "toJSONSchema" ]
  /\ Forall (fun m => EntityTest.invocations (fst m) EntityTest.entity_test = 1)
            (EntityTest.k_methods EntityTest.Entity)
  /\ Forall (fun m => EntityTest.expectations_on (fst m) EntityTest.entity_test
                      = [EntityTest.show (snd m)])
            (EntityTest.k_methods EntityTest.Entity).
Proof.
  split; [reflexivity|]. split; [reflexivity|].
  split; repeat constructor.
Qed.

(** ** The account snippet fragment *)

(** C4.  [AccountSnippetIterator] extends [Base.Iterator<AccountSnippet>]
    and nothing else, [AccountSnippetSelector] extends
    [Base.Selector<AccountSnippetIterator>], [Base.SelectorForDateRange],
    [Base.SelectorOrderBy], [Base.SelectorWithCondition] and
    [Base.SelectorWithLimit] and nothing else; neither declares a member
    of its own, so the members of each are exactly the inherited ones;
    the capability interfaces involved are six, all different. *)
Theorem account_snippet_composition :
  i_extends GoogleAdsScripts.AdsApp.AccountSnippetIterator
  = [TRef "Base.Iterator" [TRef "AccountSnippet" []]]
  /\ i_own GoogleAdsScripts.AdsApp.AccountSnippetIterator = []
  /\ i_extends GoogleAdsScripts.AdsApp.AccountSnippetSelector
     = [ TRef "Base.Selector" [TRef "AccountSnippetIterator" []];
         TRef "Base.SelectorForDateRange" [];
         TRef "Base.SelectorOrderBy" [];
         TRef "Base.SelectorWithCondition" [];
         TRef "Base.SelectorWithLimit" [] ]
  /\ i_own GoogleAdsScripts.AdsApp.AccountSnippetSelector = []
  /\ GoogleAdsScripts.AdsApp.capabilities
     = [ "Base.Iterator"; "Base.Selector"; "Base.SelectorForDateRange";
         "Base.SelectorOrderBy"; "Base.SelectorWithCondition";
         "Base.SelectorWithLimit" ]
  /\ distinct GoogleAdsScripts.AdsApp.capabilities = true
  /\ forall L : library,
       members L GoogleAdsScripts.AdsApp.AccountSnippetIterator
       = lib_members L "Base.Iterator" [TRef "AccountSnippet" []]
       /\ members L GoogleAdsScripts.AdsApp.AccountSnippetSelector
          = lib_members L "Base.Selector" [TRef "AccountSnippetIterator" []]
            ++ lib_members L "Base.SelectorForDateRange" []
            ++ lib_members L "Base.SelectorOrderBy" []
            ++ lib_members L "Base.SelectorWithCondition" []
            ++ lib_members L "Base.SelectorWithLimit" [].
Proof.
  repeat (split; [reflexivity|]).
  intros L. unfold members. simpl. rewrite !app_nil_r. split; reflexivity.
Qed.

(** ** The grid *)

(** C6.  The file declares six classes: [Table], [Column],
    [ColumnGroup], [Cell], [Plugins.ResizeCell] and
    [Plugins.ReorderCell].  Each extends [React.Component] at one
    properties interface, respectively [TableProps], [ColumnProps],
    [ColumnGroupProps], [CellProps], [Plugins.ResizeCellProps] and
    [Plugins.ReorderCellProps]; the six interfaces are different, and
    each extends one React interface instantiated at its own class. *)
Theorem six_components_each_over_its_props :
  length FixedDataTable.classes = 6
  /\ map c_name FixedDataTable.classes
     = [ "Table"; "Column"; "ColumnGroup"; "Cell";
         "Plugins.ResizeCell"; "Plugins.ReorderCell" ]
  /\ Forall (fun c => c_base c = "React.Component") FixedDataTable.classes
  /\ map c_targs FixedDataTable.classes
     = map (fun i => [i]) FixedDataTable.props_interfaces
  /\ map i_name FixedDataTable.props_interfaces
     = [ "TableProps"; "ColumnProps"; "ColumnGroupProps"; "CellProps";
         "Plugins.ResizeCellProps"; "Plugins.ReorderCellProps" ]
  /\ distinct (map i_name FixedDataTable.props_interfaces) = true
  /\ Forall2 (fun c i => exists base, i_extends i = [TRef base [TRef (c_name c) []]])
             FixedDataTable.classes FixedDataTable.props_interfaces.
Proof.
  repeat (split; [reflexivity|]).
  split; [repeat constructor|].
  repeat (split; [reflexivity|]).
  repeat constructor; eexists; reflexivity.
Qed.

(** ** Lookup and single declarations *)

Lemma lookup_app (n : string) (a b : list member) :
  lookup n (a ++ b)
  = match lookup n a with Some v => Some v | None => lookup n b end.
Proof.
  induction a as [|[k v] a IH]; simpl; [reflexivity|].
  destruct (String.eqb n k); [reflexivity|exact IH].
Qed.

Lemma lookup_none_not_in (n : string) (ms : list member) (d : bool * ty) :
  lookup n ms = None -> ~ In (n, d) ms.
Proof.
  induction ms as [|[k v] ms IH]; simpl; intros H; [tauto|].
  destruct (String.eqb n k) eqn:E; [discriminate|].
  intros [Hd|Hd].
  - inversion Hd; subst. rewrite String.eqb_refl in E. discriminate.
  - exact (IH H Hd).
Qed.

Lemma existsb_eqb_in (x : string) (l : list string) :
  existsb (String.eqb x) l = false -> ~ In x l.
Proof.
  induction l as [|y l IH]; simpl; intros H; [tauto|].
  apply orb_false_iff in H. destruct H as [Hy Hl].
  intros [->|Hin]; [rewrite String.eqb_refl in Hy; discriminate|].
  exact (IH Hl Hin).
Qed.

Lemma lookup_distinct (n : string) (d : bool * ty) (ms : list member) :
  distinct (map m_name ms) = true -> In (n, d) ms -> lookup n ms = Some d.
Proof.
  induction ms as [|[k v] ms IH]; simpl; intros Hd Hin; [contradiction|].
  apply andb_true_iff in Hd. destruct Hd as [Hk Hd].
  apply negb_true_iff, existsb_eqb_in in Hk.
  destruct Hin as [Hin|Hin].
  - inversion Hin; subst. now rewrite String.eqb_refl.
  - destruct (String.eqb n k) eqn:E.
    + apply String.eqb_eq in E. subst k. exfalso. apply Hk.
      change n with (m_name (n, d)). now apply in_map.
    + now apply IH.
Qed.

Lemma weak_required (tm : list member) (m : member) :
  In m tm -> m_optional m = false -> weak tm = false.
Proof.
  intros Hin Hm. destruct tm as [|m0 tm']; [contradiction|].
  unfold weak. destruct (forallb m_optional (m0 :: tm')) eqn:E; [|reflexivity].
  rewrite forallb_forall in E. rewrite (E m Hin) in Hm. discriminate.
Qed.

Section Acceptance.

Variable L : library.

(** An object type is accepted by an interface without repeated
    declarations when each property it supplies is declared and stands
    well against its declaration, and it supplies each required one. *)
Lemma conforms_accepts (i : interface) (sm : list member) :
  single_declarations L i = true ->
  (forall n v, lookup n sm = Some v ->
               exists d, lookup n (members L i) = Some d /\ field_ok L v d = true) ->
  (forall n d, In (n, d) (members L i) -> fst d = false -> lookup n sm <> None) ->
  conforms L (TObj sm) i = true.
Proof.
  intros Hsingle Hsupplied Hrequired. rewrite conforms_obj.
  apply andb_true_intro. split.
  - destruct sm as [|[n v] sm']; [reflexivity|].
    unfold weak_ok. apply orb_true_iff. right.
    destruct (Hsupplied n v) as [d [Hd _]]; [simpl; now rewrite String.eqb_refl|].
    unfold shares. apply existsb_exists. exists (n, d). split.
    + now apply lookup_in.
    + simpl. now rewrite String.eqb_refl.
  - apply forallb_forall. intros [n d] Hin.
    destruct (lookup n sm) as [v|] eqn:E.
    + rewrite (provides_present L sm n v d E).
      destruct (Hsupplied n v E) as [d' [Hd' Hok]].
      rewrite (lookup_distinct n d (members L i) Hsingle Hin) in Hd'.
      inversion Hd'; subst. exact Hok.
    + rewrite (provides_absent L sm n d E).
      destruct (fst d) eqn:Hopt; [reflexivity|].
      exfalso. exact (Hrequired n d Hin Hopt E).
Qed.

(** An object type is rejected as soon as one property it supplies
    stands badly against a declaration of that property. *)
Lemma conforms_rejects_field (i : interface) (sm : list member)
      (n : string) (v d : bool * ty) :
  lookup n sm = Some v -> In (n, d) (members L i) -> field_ok L v d = false ->
  conforms L (TObj sm) i = false.
Proof.
  intros Hs Hin Hbad. apply conforms_rejects with (m := (n, d)); [exact Hin|].
  now rewrite (provides_present L sm n v d Hs).
Qed.

Lemma in_own_members (i : interface) (m : member) :
  In m (i_own i) -> In m (members L i).
Proof. intros H. unfold members. apply in_or_app. now left. Qed.

End Acceptance.

Section Props.

Variable L : library.

Lemma conforms_accepts_bool (i : interface) (sm : list member) :
  single_declarations L i = true ->
  supplied_ok L i sm = true ->
  required_supplied L i sm = true ->
  conforms L (TObj sm) i = true.
Proof.
  intros Hsingle Hsup Hreq. apply conforms_accepts; [exact Hsingle| |].
  - intros n v Hn. unfold supplied_ok in Hsup. rewrite forallb_forall in Hsup.
    specialize (Hsup (n, v) (lookup_in n sm v Hn)). simpl in Hsup.
    destruct (lookup n (members L i)) as [d|]; [|discriminate].
    now exists d.
  - intros n d Hin Hopt Hnone. unfold required_supplied in Hreq.
    rewrite forallb_forall in Hreq. specialize (Hreq (n, d) Hin).
    unfold m_optional, m_name in Hreq. simpl in Hreq.
    rewrite Hopt, Hnone in Hreq. discriminate.
Qed.

Lemma required_supplied_split (i : interface) (sm : list member) :
  optional_heritage L i = true ->
  forallb (fun m : member =>
             m_optional m
             || match lookup (m_name m) sm with Some _ => true | None => false end)
          (i_own i) = true ->
  required_supplied L i sm = true.
Proof.
  intros Hopt Hown. unfold required_supplied, members.
  rewrite forallb_app, Hown. simpl.
  unfold optional_heritage, inherited in Hopt. rewrite forallb_forall in Hopt.
  apply forallb_forall. intros m Hm. now rewrite (Hopt m Hm).
Qed.

End Props.

(** C3.  For each properties interface of the grid: an object that
    supplies, for a declared property, a value whose type is not
    assignable to the declared type is rejected, so a string for the
    numeric [width] of [TableProps] or [ColumnProps] is rejected; and an
    object whose properties are all declared and correctly typed and
    which supplies every required property is accepted.  The required
    properties of [TableProps] are [width], [rowsCount], [rowHeight]
    and [headerHeight]. *)
Theorem props_checked_against_declarations
        (L : library) (i : interface) (sm : list member) :
  In i FixedDataTable.props_interfaces ->
  (forall n v d,
      lookup n sm = Some v -> In (n, d) (members L i) ->
      field_ok L v d = false ->
      conforms L (TObj sm) i = false)
  /\ (forall o,
         lookup "width" sm = Some (o, TString) ->
         conforms L (TObj sm) FixedDataTable.TableProps = false
         /\ conforms L (TObj sm) FixedDataTable.ColumnProps = false)
  /\ (single_declarations L i = true ->
      supplied_ok L i sm = true ->
      required_supplied L i sm = true ->
      conforms L (TObj sm) i = true)
  /\ required_names (i_own FixedDataTable.TableProps)
     = [ "width"; "rowsCount"; "rowHeight"; "headerHeight" ].
Proof.
  intros _. split; [|split; [|split; [|reflexivity]]].
  - intros n v d. apply conforms_rejects_field.
  - intros o Hw.
    assert (Hbad : field_ok L (o, TString) (false, TNumber) = false).
    { unfold field_ok. destruct o; reflexivity. }
    split.
    + apply conforms_rejects_field with (n := "width") (v := (o, TString)) (d := (false, TNumber));
        [exact Hw| |exact Hbad].
      apply in_own_members. simpl. tauto.
    + apply conforms_rejects_field with (n := "width") (v := (o, TString)) (d := (false, TNumber));
        [exact Hw| |exact Hbad].
      apply in_own_members. simpl. tauto.
  - apply conforms_accepts_bool.
Qed.

Lemma props_checked_against_declarations_witness :
  conforms sample_library (TObj minimal_table_props) FixedDataTable.TableProps = true
  /\ conforms sample_library
              (TObj [ req "width" TString; req "rowsCount" TNumber;
                      req "rowHeight" TNumber; req "headerHeight" TNumber ])
              FixedDataTable.TableProps = false.
Proof.
  split.
  - destruct (props_checked_against_declarations
                sample_library FixedDataTable.TableProps minimal_table_props
                (or_introl eq_refl)) as (_ & _ & Hacc & _).
    apply Hacc; reflexivity.
  - destruct (props_checked_against_declarations
                sample_library FixedDataTable.TableProps
                [ req "width" TString; req "rowsCount" TNumber;
                  req "rowHeight" TNumber; req "headerHeight" TNumber ]
                (or_introl eq_refl)) as (_ & Hw & _).
    apply (Hw false). reflexivity.
Defined.

(** C8.  [height] and [maxHeight] of [TableProps] are optional, of type
    [number | undefined]; the object with [width], [rowsCount],
    [rowHeight] and [headerHeight] and neither of the two is accepted:
    that one of them be given is not part of the declared types. *)
Theorem table_accepts_neither_height (L : library) :
  single_declarations L FixedDataTable.TableProps = true ->
  optional_heritage L FixedDataTable.TableProps = true ->
  lookup "height" (i_own FixedDataTable.TableProps)
  = Some (true, TNumber :|: TUndefined)
  /\ lookup "maxHeight" (i_own FixedDataTable.TableProps)
     = Some (true, TNumber :|: TUndefined)
  /\ map m_name minimal_table_props
     = [ "width"; "rowsCount"; "rowHeight"; "headerHeight" ]
  /\ conforms L (TObj minimal_table_props) FixedDataTable.TableProps = true.
Proof.
  intros Hsingle Hopt. repeat (split; [reflexivity|]).
  apply conforms_accepts_bool; [exact Hsingle|reflexivity|].
  apply required_supplied_split; [exact Hopt|reflexivity].
Qed.

Lemma table_accepts_neither_height_witness :
  conforms sample_library (TObj minimal_table_props) FixedDataTable.TableProps = true.
Proof.
  apply (table_accepts_neither_height sample_library); reflexivity.
Defined.

(** C10.  The two shapes declared for the end of a column reorder
    differ.  [ColumnReorderEndEvent], the argument of
    [TableProps.onColumnReorderEndCallback], declares [columnBefore] and
    [columnAfter] optional, of type [string | undefined]; the argument
    of [ReorderCellProps.onColumnReorderEnd] requires both as [string].
    An event whose [columnBefore] is [undefined] (the other two
    properties being strings) is assignable to the first and not to the
    second. *)
Theorem reorder_event_shapes_disagree (L : library) (sm : list member) :
  lookup "columnBefore" sm = Some (false, TUndefined) ->
  lookup "columnAfter" sm = Some (false, TString) ->
  lookup "reorderColumn" sm = Some (false, TString) ->
  i_own FixedDataTable.ColumnReorderEndEvent
  = [ opt "columnBefore" (TString :|: TUndefined);
      opt "columnAfter" (TString :|: TUndefined);
      req "reorderColumn" TString ]
  /\ lookup "onColumnReorderEndCallback" (i_own FixedDataTable.TableProps)
     = Some (true,
             TFun [local_type FixedDataTable.ColumnReorderEndEvent] TVoid :|: TUndefined)
  /\ lookup "onColumnReorderEnd" (i_own FixedDataTable.Plugins.ReorderCellProps)
     = Some (false, TFun [FixedDataTable.Plugins.ReorderEndArgument] TVoid)
  /\ FixedDataTable.Plugins.ReorderEndArgument
     = TObj [ req "columnBefore" TString;
              req "columnAfter" TString;
              req "reorderColumn" TString ]
  /\ assignable L (TObj sm) (local_type FixedDataTable.ColumnReorderEndEvent) = true
  /\ assignable L (TObj sm) FixedDataTable.Plugins.ReorderEndArgument = false.
Proof.
  intros Hb Ha Hr. repeat (split; [reflexivity|]). split.
  - unfold local_type, local_members.
    cbn [FixedDataTable.ColumnReorderEndEvent i_own i_extends flat_map app].
    rewrite assignable_obj. apply andb_true_intro. split.
    + destruct sm; reflexivity.
    + cbn [forallb]. unfold provides, member_ok, opt, req.
      rewrite Hb, Ha, Hr. reflexivity.
  - unfold FixedDataTable.Plugins.ReorderEndArgument. rewrite assignable_obj.
    cbn [forallb]. unfold provides at 1. unfold member_ok, req. rewrite Hb.
    replace (assignable L (read_type false TUndefined) (read_type false TString))
      with false by reflexivity.
    cbn [implb andb]. apply andb_false_r.
Qed.

Lemma reorder_event_shapes_disagree_witness :
  assignable sample_library
    (TObj [ req "columnBefore" TUndefined; req "columnAfter" TString;
            req "reorderColumn" TString ])
    (local_type FixedDataTable.ColumnReorderEndEvent) = true
  /\ assignable sample_library
       (TObj [ req "columnBefore" TUndefined; req "columnAfter" TString;
               req "reorderColumn" TString ])
       FixedDataTable.Plugins.ReorderEndArgument = false.
Proof.
  apply (reorder_event_shapes_disagree sample_library
           [ req "columnBefore" TUndefined; req "columnAfter" TString;
             req "reorderColumn" TString ]); reflexivity.
Defined.

(** C9.  An object that conforms to [ResizeCellProps] supplies
    [onColumnResizeEnd], not as an optional property, and one that
    conforms to [ReorderCellProps] supplies [onColumnReorderEnd]
    likewise: these are the only required properties the two interfaces
    declare.  On [TableProps], [onColumnResizeEndCallback],
    [onColumnReorderEndCallback] and every other property that can hold
    a function are optional. *)
Theorem plugin_end_callbacks_required (L : library) :
  (forall sm,
      conforms L (TObj sm) FixedDataTable.Plugins.ResizeCellProps = true ->
      exists st, lookup "onColumnResizeEnd" sm = Some (false, st)
                 /\ assignable L st (TFun [TNumber; TString] TVoid) = true)
  /\ (forall sm,
         conforms L (TObj sm) FixedDataTable.Plugins.ReorderCellProps = true ->
         exists st, lookup "onColumnReorderEnd" sm = Some (false, st)
                    /\ assignable L st
                         (TFun [FixedDataTable.Plugins.ReorderEndArgument] TVoid) = true)
  /\ required_names (i_own FixedDataTable.Plugins.ResizeCellProps)
     = [ "onColumnResizeEnd" ]
  /\ required_names (i_own FixedDataTable.Plugins.ReorderCellProps)
     = [ "onColumnReorderEnd" ]
  /\ lookup "onColumnResizeEndCallback" (i_own FixedDataTable.TableProps)
     = Some (true, TFun [TNumber; TString] TVoid :|: TUndefined)
  /\ lookup "onColumnReorderEndCallback" (i_own FixedDataTable.TableProps)
     = Some (true,
             TFun [local_type FixedDataTable.ColumnReorderEndEvent] TVoid :|: TUndefined)
  /\ length (FixedDataTable.callbacks FixedDataTable.TableProps) = 24
  /\ Forall (fun m => m_optional m = true)
            (FixedDataTable.callbacks FixedDataTable.TableProps).
Proof.
  assert (Hsup : forall i n dt sm,
             In (n, (false, dt)) (i_own i) ->
             conforms L (TObj sm) i = true ->
             exists st, lookup n sm = Some (false, st) /\ assignable L st dt = true).
  { intros i n dt sm Hin Hc.
    pose proof (conforms_provides L sm i (n, (false, dt)) Hc
                  (in_own_members L i _ Hin)) as Hp.
    unfold provides, member_ok in Hp.
    destruct (lookup n sm) as [[o st]|]; [|discriminate].
    destruct o; [discriminate|]. simpl in Hp. now exists st. }
  split; [|split].
  - intros sm. apply Hsup. simpl. tauto.
  - intros sm. apply Hsup. simpl. tauto.
  - repeat (split; [reflexivity|]).
    apply Forall_forall. apply forallb_forall. reflexivity.
Qed.

Lemma plugin_end_callbacks_required_witness :
  exists st,
    lookup "onColumnResizeEnd" [ req "onColumnResizeEnd" (TFun [TNumber] TVoid) ]
    = Some (false, st)
    /\ assignable sample_library st (TFun [TNumber; TString] TVoid) = true.
Proof.
  destruct (plugin_end_callbacks_required sample_library) as (H & _).
  apply (H [ req "onColumnResizeEnd" (TFun [TNumber] TVoid) ]). reflexivity.
Defined.

(** ** The selector contract *)

Lemma weak_all_required (tm : list member) :
  forallb (fun m => negb (m_optional m)) tm = true -> weak tm = false.
Proof.
  destruct tm as [|m tm']; [reflexivity|]. intros H.
  apply weak_required with (m := m); [now left|].
  simpl in H. apply andb_true_iff in H. destruct H as [H _].
  now apply negb_true_iff in H.
Qed.

(** C2.  The capability interfaces declaring required members only
    (methods, in the base library), an object type satisfies
    [AccountSnippetSelector] if and only if it provides every member of
    each of the five interfaces the selector extends; an object type
    that omits one member of one of them is rejected. *)
Theorem selector_contract_is_all_capabilities (L : library) (sm : list member) :
  required_heritage L GoogleAdsScripts.AdsApp.AccountSnippetSelector = true ->
  (conforms L (TObj sm) GoogleAdsScripts.AdsApp.AccountSnippetSelector = true
   <-> forall c, In c (i_extends GoogleAdsScripts.AdsApp.AccountSnippetSelector) ->
       forall m, In m (heritage L c) -> provides L sm m = true)
  /\ (forall c m,
         In c (i_extends GoogleAdsScripts.AdsApp.AccountSnippetSelector) ->
         In m (heritage L c) ->
         lookup (m_name m) sm = None ->
         conforms L (TObj sm) GoogleAdsScripts.AdsApp.AccountSnippetSelector = false).
Proof.
  intros Hreq.
  set (S := GoogleAdsScripts.AdsApp.AccountSnippetSelector) in *.
  assert (Hmem : members L S = inherited L S) by reflexivity.
  assert (Hweak : weak_ok sm (members L S) = true).
  { unfold weak_ok. destruct sm; [reflexivity|].
    rewrite Hmem, (weak_all_required _ Hreq). reflexivity. }
  split; [split|].
  - intros Hc c Hin m Hm. apply (conforms_provides L sm S m Hc).
    rewrite Hmem. unfold inherited. apply in_flat_map. now exists c.
  - intros H. rewrite conforms_obj, Hweak. simpl.
    apply forallb_forall. intros m Hm. rewrite Hmem in Hm.
    unfold inherited in Hm. apply in_flat_map in Hm.
    destruct Hm as [c [Hc Hm]]. exact (H c Hc m Hm).
  - intros c m Hc Hm Hnone.
    assert (Hin : In m (members L S)).
    { rewrite Hmem. unfold inherited. apply in_flat_map. now exists c. }
    apply conforms_rejects with (m := m); [exact Hin|].
    destruct m as [n d]. rewrite (provides_absent L sm n d Hnone).
    unfold required_heritage in Hreq. rewrite forallb_forall in Hreq.
    rewrite Hmem in Hin. specialize (Hreq (n, d) Hin).
    now apply negb_true_iff in Hreq.
Qed.

Lemma selector_contract_is_all_capabilities_witness :
  provides sample_library sample_selector
           (req "orderBy" (TFun [TString] (TRef "this" []))) = true
  /\ conforms sample_library (TObj (tl sample_selector))
              GoogleAdsScripts.AdsApp.AccountSnippetSelector = false.
Proof.
  split.
  - destruct (selector_contract_is_all_capabilities
                sample_library sample_selector eq_refl) as [[Hc _] _].
    apply (Hc eq_refl (TRef "Base.SelectorOrderBy" [])); simpl; tauto.
  - destruct (selector_contract_is_all_capabilities
                sample_library (tl sample_selector) eq_refl) as [_ Hrej].
    apply (Hrej (TRef "Base.Selector" [TRef "AccountSnippetIterator" []])
                (req "get" (TFun [] (TRef "AccountSnippetIterator" []))));
      [simpl; tauto|simpl; tauto|reflexivity].
Defined.

(** ** Function types *)

Lemma forallb_seq_beyond (f : nat -> bool) (c n : nat) :
  (forall i, n <= i -> f i = true) ->
  forallb f (seq 0 (Nat.max c n)) = forallb f (seq 0 n).
Proof.
  intros H. replace (Nat.max c n) with (n + (Nat.max c n - n)) by lia.
  rewrite seq_app, forallb_app.
  replace (forallb f (seq (0 + n) (Nat.max c n - n))) with true;
    [apply andb_true_r|].
  symmetry. apply forallb_forall. intros i Hi. apply in_seq in Hi. apply H. lia.
Qed.

Lemma type_at_required (req : list ty) (i : nat) :
  type_at req [] None i = nth_error req i.
Proof.
  unfold type_at. destruct (nth_error req i); [reflexivity|].
  now destruct (i - length req).
Qed.

Lemma position_ok_none (rec : ty -> ty -> bool) (s : option ty) :
  position_ok rec s None = true.
Proof. now destruct s. Qed.

(** Against a target whose parameters are all required, only the
    positions of the target are compared, and the source must not
    require more. *)
Lemma params_ok_target_required (rec : ty -> ty -> bool)
      (sq so : list ty) (sx : option ty) (tp : list ty) :
  params_ok rec sq so sx tp [] None
  = Nat.leb (length sq) (length tp)
    && forallb (fun i => position_ok rec (type_at sq so sx i) (nth_error tp i))
               (seq 0 (length tp)).
Proof.
  unfold params_ok, arity_ok, param_count. cbn [length]. rewrite !Nat.add_0_r.
  f_equal. rewrite forallb_seq_beyond.
  - apply forallb_ext_in. intros i _. now rewrite type_at_required.
  - intros i Hi. rewrite type_at_required.
    replace (nth_error tp i) with (@None ty); [apply position_ok_none|].
    symmetry. now apply nth_error_None.
Qed.

Lemma forallb_seq_shift (f : nat -> bool) (n : nat) :
  forallb f (seq 1 n) = forallb (fun i => f (S i)) (seq 0 n).
Proof.
  rewrite <- seq_shift. induction (seq 0 n) as [|i l IH]; [reflexivity|].
  cbn [map forallb]. now rewrite IH.
Qed.

(** Between signatures with required parameters only. *)
Lemma params_ok_required (rec : ty -> ty -> bool) (sp tp : list ty) :
  params_ok rec sp [] None tp [] None = required_params_ok rec sp tp.
Proof.
  rewrite params_ok_target_required.
  revert sp. induction tp as [|t tp IH]; intros sp.
  - destruct sp; reflexivity.
  - destruct sp as [|s sp].
    + cbn [length Nat.leb required_params_ok andb].
      apply forallb_forall. intros i _. rewrite type_at_required.
      now destruct i.
    + cbn [length Nat.leb required_params_ok]. rewrite <- IH.
      cbn [seq forallb]. rewrite forallb_seq_shift.
      rewrite !type_at_required. cbn [nth_error position_ok].
      rewrite (forallb_ext_in
                 (fun i => position_ok rec (type_at (s :: sp) [] None (S i))
                                       (nth_error (t :: tp) (S i)))
                 (fun i => position_ok rec (type_at sp [] None i) (nth_error tp i)));
        [|intros i _; now rewrite !type_at_required].
      destruct (Nat.leb (length sp) (length tp)), (rec t s); reflexivity.
Qed.


Section Signatures.

Variable L : library.

Lemma assignable_sig (sq so : list ty) (sx : option ty) (sr : ty)
      (tq to : list ty) (tx : option ty) (tr : ty) :
  assignable L (TSig sq so sx sr) (TSig tq to tx tr)
  = params_ok (assignable L) sq so sx tq to tx && return_ok (assignable L) sr tr.
Proof. rewrite assignable_unfold. reflexivity. Qed.



End Signatures.

(** ** Scroll callbacks and the recycling flag *)

Section Flag.

Variable L : library.



End Flag.




(** * Further properties of the declarations *)

(** ** Unions, functions and width *)

Section Rules.

Variable L : library.

Lemma assignable_any_r (t : ty) : assignable L t TAny = true.
Proof. rewrite assignable_unfold. destruct t; reflexivity. Qed.

(** A type assignable to one alternative is assignable to the union. *)
Lemma assignable_union_l (t a b : ty) :
  assignable L t a = true -> assignable L t (a :|: b) = true.
Proof.
  induction t; intros H; rewrite assignable_unfold; cbn [assignable_step];
    try reflexivity; try (now rewrite H).
  rewrite assignable_unfold in H.
  destruct a; cbn [assignable_step] in H;
    try (apply andb_true_iff in H; destruct H as [H1 H2];
         now rewrite (IHt1 H1), (IHt2 H2)).
  rewrite IHt1, IHt2; auto using assignable_any_r.
Qed.

Lemma assignable_union_r (t a b : ty) :
  assignable L t b = true -> assignable L t (a :|: b) = true.
Proof.
  induction t; intros H; rewrite assignable_unfold; cbn [assignable_step];
    try reflexivity; try (rewrite H; now rewrite orb_true_r).
  rewrite assignable_unfold in H.
  destruct b; cbn [assignable_step] in H;
    try (apply andb_true_iff in H; destruct H as [H1 H2];
         now rewrite (IHt1 H1), (IHt2 H2)).
  rewrite IHt1, IHt2; auto using assignable_any_r.
Qed.

(** Declaring [| undefined] on an optional property adds nothing. *)
Lemma assignable_optional_undefined (t a : ty) :
  assignable L t (read_type true (a :|: TUndefined))
  = assignable L t (a :|: TUndefined).
Proof.
  cbn [read_type].
  destruct (assignable L t (a :|: TUndefined)) eqn:E.
  - now apply assignable_union_l.
  - induction t; rewrite assignable_unfold; cbn [assignable_step];
      try (rewrite assignable_unfold in E; cbn [assignable_step] in E; discriminate).
    all: try (rewrite E; cbn [orb];
              rewrite assignable_unfold in E; cbn [assignable_step] in E;
              apply orb_false_iff in E; now destruct E as [_ E]).
    rewrite assignable_unfold in E. cbn [assignable_step] in E.
    apply andb_false_iff in E. destruct E as [E|E].
    + now rewrite (IHt1 E).
    + rewrite (IHt2 E). apply andb_false_r.
Qed.

Lemma assignable_fun (sp tp : list ty) (sr tr : ty) :
  assignable L (TFun sp sr) (TFun tp tr)
  = required_params_ok (assignable L) sp tp && return_ok (assignable L) sr tr.
Proof. now rewrite assignable_sig, params_ok_required. Qed.

(** A function against an optional property of function type. *)
Lemma assignable_fun_optional (sp tp : list ty) (sr tr : ty) :
  assignable L (TFun sp sr) (read_type true (TFun tp tr :|: TUndefined))
  = assignable L (TFun sp sr) (TFun tp tr).
Proof.
  rewrite assignable_optional_undefined.
  rewrite (assignable_unfold L (TFun sp sr) (_ :|: _)). cbn [assignable_step].
  rewrite (assignable_unfold L (TFun sp sr) TUndefined). cbn [assignable_step].
  apply orb_false_r.
Qed.

Lemma provides_required_inv (sm : list member) (n : string) (dt : ty) :
  provides L sm (n, (false, dt)) = true ->
  exists st, lookup n sm = Some (false, st) /\ assignable L st dt = true.
Proof.
  unfold provides, member_ok. intros Hp.
  destruct (lookup n sm) as [[o st]|]; [|discriminate].
  destruct o; [discriminate|]. cbn [implb andb read_type] in Hp. now exists st.
Qed.

(** Width: an object type assignable to an object type is assignable
    to any selection of its members that is not weak. *)
Lemma assignable_obj_subset (sm tm tm' : list member) :
  (forall m, In m tm' -> In m tm) -> weak tm' = false ->
  assignable L (TObj sm) (TObj tm) = true ->
  assignable L (TObj sm) (TObj tm') = true.
Proof.
  intros Hsub Hweak H. rewrite assignable_obj in *.
  apply andb_true_iff in H. destruct H as [_ H]. rewrite forallb_forall in H.
  apply andb_true_intro. split.
  - unfold weak_ok. destruct sm; [reflexivity|]. now rewrite Hweak.
  - apply forallb_forall. intros m Hm. apply H, Hsub, Hm.
Qed.

End Rules.

(** ** The props handed to renderers *)

(** X1.  [ColumnCellProps] extends [ColumnHeaderProps]: an object type
    assignable to the first is assignable to the second, and it has a
    [rowIndex], not optional, of a type assignable to [number]. *)
Theorem column_cell_props_extend_header_props (L : library) (sm : list member) :
  assignable L (TObj sm) (local_type FixedDataTable.ColumnCellProps) = true ->
  assignable L (TObj sm) (local_type FixedDataTable.ColumnHeaderProps) = true
  /\ exists st, lookup "rowIndex" sm = Some (false, st)
                /\ assignable L st TNumber = true.
Proof.
  intros H. split.
  - revert H. apply assignable_obj_subset; [|reflexivity].
    intros m Hm. cbn in *. tauto.
  - apply provides_required_inv.
    unfold local_type in H. rewrite assignable_obj in H.
    apply andb_true_iff in H. destruct H as [_ H]. rewrite forallb_forall in H.
    apply H. cbn. tauto.
Qed.

Lemma column_cell_props_extend_header_props_witness :
  assignable sample_library
    (TObj [ req "rowIndex" TNumber; req "height" TNumber; req "width" TNumber ])
    (local_type FixedDataTable.ColumnHeaderProps) = true
  /\ exists st,
       lookup "rowIndex"
         [ req "rowIndex" TNumber; req "height" TNumber; req "width" TNumber ]
       = Some (false, st)
       /\ assignable sample_library st TNumber = true.
Proof.
  apply (column_cell_props_extend_header_props sample_library). reflexivity.
Defined.

(** X2.  The props of the renderers nest by structure though only one
    [extends] is written: what is assignable to [ColumnCellProps] is
    assignable to [RowProps], and what is assignable to [RowProps] or to
    [ColumnHeaderProps] is assignable to [ColumnGroupHeaderProps]. *)
Theorem renderer_props_nest (L : library) (sm : list member) :
  (assignable L (TObj sm) (local_type FixedDataTable.ColumnCellProps) = true ->
   assignable L (TObj sm) (local_type FixedDataTable.RowProps) = true)
  /\ (assignable L (TObj sm) (local_type FixedDataTable.RowProps) = true ->
      assignable L (TObj sm) (local_type FixedDataTable.ColumnGroupHeaderProps) = true)
  /\ (assignable L (TObj sm) (local_type FixedDataTable.ColumnHeaderProps) = true ->
      assignable L (TObj sm) (local_type FixedDataTable.ColumnGroupHeaderProps) = true).
Proof.
  repeat split; apply assignable_obj_subset; try reflexivity;
    intros m Hm; cbn in *; tauto.
Qed.

Lemma renderer_props_nest_witness :
  assignable sample_library
    (TObj [ req "rowIndex" TNumber; req "height" TNumber; req "width" TNumber ])
    (local_type FixedDataTable.ColumnGroupHeaderProps) = true.
Proof.
  destruct (renderer_props_nest sample_library
              [ req "rowIndex" TNumber; req "height" TNumber; req "width" TNumber ])
    as (_ & H & _).
  apply H. reflexivity.
Defined.

(** X3.  Renderers are functions of their props, so they nest the other
    way.  A function of [ColumnHeaderProps] or of [RowProps] whose
    result is a string or an element is accepted where [Column.cell]
    wants [ElementOrFunc<ColumnCellProps>]; a function of
    [ColumnCellProps] is never assignable to the function type of
    [Column.header] and [Column.footer]. *)
Theorem renderers_nest_contravariantly (L : library) (r : ty) :
  (assignable L r (TString :|: FixedDataTable.ReactElement) = true ->
   assignable L (TFun [local_type FixedDataTable.ColumnHeaderProps] r)
     (FixedDataTable.ElementOrFunc (local_type FixedDataTable.ColumnCellProps)) = true
   /\ assignable L (TFun [local_type FixedDataTable.RowProps] r)
        (FixedDataTable.ElementOrFunc (local_type FixedDataTable.ColumnCellProps)) = true)
  /\ assignable L (TFun [local_type FixedDataTable.ColumnCellProps] r)
       (TFun [local_type FixedDataTable.ColumnHeaderProps]
             (TString :|: FixedDataTable.ReactElement)) = false.
Proof.
  split.
  - intros Hr. unfold FixedDataTable.ElementOrFunc.
    split; apply assignable_union_r, assignable_union_r;
      rewrite assignable_fun; cbn [required_params_ok return_ok];
      rewrite Hr, andb_true_r; reflexivity.
  - rewrite assignable_fun. cbn [required_params_ok].
    replace (assignable L (local_type FixedDataTable.ColumnHeaderProps)
                          (local_type FixedDataTable.ColumnCellProps))
      with false by reflexivity.
    reflexivity.
Qed.

Lemma renderers_nest_contravariantly_witness :
  assignable sample_library
    (TFun [local_type FixedDataTable.ColumnHeaderProps] TString)
    (FixedDataTable.ElementOrFunc (local_type FixedDataTable.ColumnCellProps)) = true.
Proof.
  destruct (renderers_nest_contravariantly sample_library TString) as [H _].
  apply H. reflexivity.
Defined.

(** ** Handlers *)

Lemma field_ok_fun_optional (L : library) (sp tp : list ty) (sr tr : ty) :
  field_ok L (false, TFun sp sr) (true, TFun tp tr :|: TUndefined)
  = assignable L (TFun sp sr) (TFun tp tr).
Proof. exact (assignable_fun_optional L sp tp sr tr). Qed.

Lemma field_ok_fun_required (L : library) (sp tp : list ty) (sr tr : ty) :
  field_ok L (false, TFun sp sr) (false, TFun tp tr)
  = assignable L (TFun sp sr) (TFun tp tr).
Proof. reflexivity. Qed.

(** X4.  The argument [ReorderCell] passes to [onColumnReorderEnd] is a
    [ColumnReorderEndEvent]: an object type assignable to the first is
    assignable to the second.  Hence a handler of
    [ColumnReorderEndEvent], as [Table.onColumnReorderEndCallback]
    takes, is accepted for [ReorderCell.onColumnReorderEnd] whatever it
    returns, while a handler of the argument of [ReorderCell] is
    rejected for [Table.onColumnReorderEndCallback] whatever it
    returns. *)
Theorem reorder_handlers_one_way (L : library) :
  (forall sm,
      assignable L (TObj sm) FixedDataTable.Plugins.ReorderEndArgument = true ->
      assignable L (TObj sm) (local_type FixedDataTable.ColumnReorderEndEvent) = true)
  /\ (forall r,
         field_ok L
           (false, TFun [local_type FixedDataTable.ColumnReorderEndEvent] r)
           (false, TFun [FixedDataTable.Plugins.ReorderEndArgument] TVoid) = true)
  /\ (forall r,
         field_ok L
           (false, TFun [FixedDataTable.Plugins.ReorderEndArgument] r)
           (true, TFun [local_type FixedDataTable.ColumnReorderEndEvent] TVoid
                  :|: TUndefined) = false).
Proof.
  split; [|split].
  - intros sm H. unfold FixedDataTable.Plugins.ReorderEndArgument in H.
    rewrite assignable_obj in H. apply andb_true_iff in H. destruct H as [_ H].
    cbn [forallb] in H.
    apply andb_true_iff in H. destruct H as [Hb H].
    apply andb_true_iff in H. destruct H as [Ha H].
    apply andb_true_iff in H. destruct H as [Hr _].
    apply provides_required_inv in Hb. destruct Hb as [sb [Hb Hsb]].
    apply provides_required_inv in Ha. destruct Ha as [sa [Ha Hsa]].
    apply provides_required_inv in Hr. destruct Hr as [sr [Hr Hsr]].
    unfold local_type, local_members.
    cbn [FixedDataTable.ColumnReorderEndEvent i_own i_extends flat_map app].
    rewrite assignable_obj. apply andb_true_intro. split.
    + destruct sm; reflexivity.
    + cbn [forallb]. unfold provides, member_ok, opt, req.
      rewrite Hb, Ha, Hr. cbn [implb andb read_type].
      rewrite (assignable_union_l L sb _ _ (assignable_union_l L sb _ _ Hsb)).
      rewrite (assignable_union_l L sa _ _ (assignable_union_l L sa _ _ Hsa)).
      rewrite Hsr. reflexivity.
  - intros r. rewrite field_ok_fun_required, assignable_fun. reflexivity.
  - intros r. rewrite field_ok_fun_optional, assignable_fun. reflexivity.
Qed.

Lemma reorder_handlers_one_way_witness :
  assignable sample_library
    (TObj [ req "columnBefore" TString; req "columnAfter" TString;
            req "reorderColumn" TString ])
    (local_type FixedDataTable.ColumnReorderEndEvent) = true.
Proof.
  destruct (reorder_handlers_one_way sample_library) as (H & _).
  apply H. reflexivity.
Defined.



(** ** Required and optional properties *)

Lemma assignable_obj_rejects (L : library) (sm tm : list member) (m : member) :
  In m tm -> provides L sm m = false -> assignable L (TObj sm) (TObj tm) = false.
Proof.
  intros Hin Hm. rewrite assignable_obj.
  destruct (forallb (provides L sm) tm) eqn:E; [|apply andb_false_r].
  rewrite forallb_forall in E. rewrite (E m Hin) in Hm. discriminate.
Qed.

Lemma shares_none (sm tm : list member) :
  (forall m, In m tm -> lookup (m_name m) sm = None) -> shares sm tm = false.
Proof.
  intros H. unfold shares. destruct (existsb _ tm) eqn:E; [|reflexivity].
  apply existsb_exists in E. destruct E as [m [Hm E]].
  rewrite (H m Hm) in E. discriminate.
Qed.

(** X6.  [TableProps], [ColumnProps], [ResizeCellProps] and
    [ReorderCellProps] reject the empty object.  [ColumnGroupProps] and
    [CellProps] declare optional properties only: when what they inherit
    is optional too, they accept the empty object, and reject any
    non-empty object that has none of their properties. *)
Theorem empty_props_objects (L : library) :
  conforms L (TObj []) FixedDataTable.TableProps = false
  /\ conforms L (TObj []) FixedDataTable.ColumnProps = false
  /\ conforms L (TObj []) FixedDataTable.Plugins.ResizeCellProps = false
  /\ conforms L (TObj []) FixedDataTable.Plugins.ReorderCellProps = false
  /\ (forall i,
         In i [ FixedDataTable.ColumnGroupProps; FixedDataTable.CellProps ] ->
         optional_heritage L i = true ->
         conforms L (TObj []) i = true
         /\ forall sm,
             sm <> [] ->
             (forall m, In m (members L i) -> lookup (m_name m) sm = None) ->
             conforms L (TObj sm) i = false).
Proof.
  assert (Hrej : forall i n dt,
             In (n, (false, dt)) (i_own i) -> conforms L (TObj []) i = false).
  { intros i n dt Hin.
    apply conforms_rejects with (m := (n, (false, dt)));
      [now apply in_own_members|reflexivity]. }
  split; [apply (Hrej _ "width" TNumber); cbn; tauto|].
  split; [apply (Hrej _ "width" TNumber); cbn; tauto|].
  split; [apply (Hrej _ "onColumnResizeEnd" (TFun [TNumber; TString] TVoid));
          cbn; tauto|].
  split; [apply (Hrej _ "onColumnReorderEnd"
                   (TFun [FixedDataTable.Plugins.ReorderEndArgument] TVoid));
          cbn; tauto|].
  intros i Hi Hopt.
  assert (Hall : forallb m_optional (members L i) = true).
  { unfold members. rewrite forallb_app. apply andb_true_intro. split; [|exact Hopt].
    cbn [In] in Hi. destruct Hi as [<-|[<-|[]]]; reflexivity. }
  assert (Hne : exists m ms, members L i = m :: ms).
  { unfold members. cbn [In] in Hi. destruct Hi as [<-|[<-|[]]]; eexists; eexists; reflexivity. }
  split.
  - rewrite conforms_obj. cbn [weak_ok andb].
    apply forallb_forall. intros [n d] Hm.
    rewrite provides_absent by reflexivity.
    rewrite forallb_forall in Hall. exact (Hall (n, d) Hm).
  - intros sm Hsm Hnone. rewrite conforms_obj.
    destruct sm as [|m0 sm']; [contradiction|].
    unfold weak_ok. rewrite (shares_none _ _ Hnone).
    destruct Hne as [m [ms Hms]]. rewrite Hms in *.
    cbn [weak]. rewrite Hall. reflexivity.
Qed.

Lemma empty_props_objects_witness :
  conforms sample_library (TObj []) FixedDataTable.CellProps = true
  /\ conforms sample_library (TObj [ req "colour" TString ])
              FixedDataTable.CellProps = false.
Proof.
  destruct (empty_props_objects sample_library) as (_ & _ & _ & _ & H).
  destruct (H FixedDataTable.CellProps) as [Hempty Hweak];
    [cbn; tauto|reflexivity|].
  split; [exact Hempty|].
  apply Hweak; [discriminate|].
  intros m Hm. cbn in Hm.
  repeat (destruct Hm as [<-|Hm]; [reflexivity|]). contradiction.
Defined.

(** X7.  An object type that conforms to [TableProps] has [width],
    [rowsCount], [rowHeight] and [headerHeight], none optional and each
    of a type assignable to [number]; one that conforms to
    [ColumnProps] has such a [width]. *)
Theorem required_props_are_supplied (L : library) (sm : list member) :
  (conforms L (TObj sm) FixedDataTable.TableProps = true ->
   forall n, In n [ "width"; "rowsCount"; "rowHeight"; "headerHeight" ] ->
   exists st, lookup n sm = Some (false, st) /\ assignable L st TNumber = true)
  /\ (conforms L (TObj sm) FixedDataTable.ColumnProps = true ->
      exists st, lookup "width" sm = Some (false, st)
                 /\ assignable L st TNumber = true).
Proof.
  split.
  - intros Hc n Hn. apply provides_required_inv.
    apply (conforms_provides L sm _ _ Hc). apply in_own_members.
    cbn [In] in Hn. repeat (destruct Hn as [<-|Hn]; [cbn; tauto|]). contradiction.
  - intros Hc. apply provides_required_inv.
    apply (conforms_provides L sm _ _ Hc). apply in_own_members. cbn. tauto.
Qed.

Lemma required_props_are_supplied_witness :
  exists st, lookup "rowsCount" minimal_table_props = Some (false, st)
             /\ assignable sample_library st TNumber = true.
Proof.
  destruct (required_props_are_supplied sample_library minimal_table_props) as [H _].
  apply H; [reflexivity|cbn; tauto].
Defined.

(** ** Literal unions and keys *)

(** X8.  [overflowX] and [overflowY] take the literals ["hidden"] and
    ["auto"] and no other string literal; [align] takes ["left"],
    ["center"] and ["right"] and no other.  A value of the wide type
    [string] is rejected for each of them. *)
Theorem literal_valued_props (L : library) :
  (forall s,
      field_ok L (false, TLit s)
        (true, TLit "hidden" :|: TLit "auto" :|: TUndefined)
      = String.eqb s "hidden" || String.eqb s "auto")
  /\ (forall s,
         field_ok L (false, TLit s)
           (true, TLit "left" :|: TLit "center" :|: TLit "right" :|: TUndefined)
         = String.eqb s "left" || (String.eqb s "center" || String.eqb s "right"))
  /\ (forall sm n,
         In n [ "overflowX"; "overflowY" ] ->
         lookup n sm = Some (false, TString) ->
         conforms L (TObj sm) FixedDataTable.TableProps = false)
  /\ (forall sm,
         lookup "align" sm = Some (false, TString) ->
         conforms L (TObj sm) FixedDataTable.ColumnProps = false
         /\ conforms L (TObj sm) FixedDataTable.ColumnGroupProps = false).
Proof.
  split; [|split; [|split]].
  - intros s. unfold field_ok. cbn [fst snd implb andb read_type].
    repeat (rewrite (assignable_unfold L (TLit s) _);
            cbn [assignable_step prim_assignable]).
    now rewrite !orb_false_r.
  - intros s. unfold field_ok. cbn [fst snd implb andb read_type].
    repeat (rewrite (assignable_unfold L (TLit s) _);
            cbn [assignable_step prim_assignable]).
    now rewrite !orb_false_r.
  - intros sm n Hn Hs.
    apply conforms_rejects_field
      with (n := n) (v := (false, TString))
           (d := (true, TLit "hidden" :|: TLit "auto" :|: TUndefined));
      [exact Hs| |reflexivity].
    apply in_own_members. cbn [In] in Hn.
    repeat (destruct Hn as [<-|Hn]; [cbn; tauto|]). contradiction.
  - intros sm Hs.
    split;
      apply conforms_rejects_field
        with (n := "align") (v := (false, TString))
             (d := (true, TLit "left" :|: TLit "center" :|: TLit "right" :|: TUndefined));
      try exact Hs; try reflexivity; apply in_own_members; cbn; tauto.
Qed.

Lemma literal_valued_props_witness :
  conforms sample_library
    (TObj (req "overflowX" TString :: minimal_table_props))
    FixedDataTable.TableProps = false.
Proof.
  destruct (literal_valued_props sample_library) as (_ & _ & H & _).
  apply (H _ "overflowX"); [cbn; tauto|reflexivity].
Defined.

(** X9.  A column may be keyed by a number: [columnKey] of
    [ColumnProps] and of [CellProps] is [string | number | undefined].
    The props handed to the header, footer and cell renderers declare
    [columnKey] as [string | undefined]: an object with a numeric
    [columnKey] is assignable neither to [ColumnHeaderProps] nor to
    [ColumnCellProps]. *)
Theorem numeric_column_key (L : library) :
  lookup "columnKey" (i_own FixedDataTable.ColumnProps)
  = Some (true, TString :|: TNumber :|: TUndefined)
  /\ lookup "columnKey" (i_own FixedDataTable.CellProps)
     = Some (true, TString :|: TNumber :|: TUndefined)
  /\ field_ok L (false, TNumber) (true, TString :|: TNumber :|: TUndefined) = true
  /\ (forall sm o,
         lookup "columnKey" sm = Some (o, TNumber) ->
         assignable L (TObj sm) (local_type FixedDataTable.ColumnHeaderProps) = false
         /\ assignable L (TObj sm) (local_type FixedDataTable.ColumnCellProps) = false).
Proof.
  repeat (split; [reflexivity|]).
  intros sm o Hs.
  assert (Hbad : provides L sm ("columnKey", (true, TString :|: TUndefined)) = false).
  { rewrite (provides_present L sm _ _ _ Hs). destruct o; reflexivity. }
  split; apply assignable_obj_rejects with (m := ("columnKey", (true, TString :|: TUndefined)));
    try exact Hbad; cbn; tauto.
Qed.

Lemma numeric_column_key_witness :
  assignable sample_library
    (TObj [ req "columnKey" TNumber; req "height" TNumber; req "width" TNumber ])
    (local_type FixedDataTable.ColumnHeaderProps) = false.
Proof.
  destruct (numeric_column_key sample_library) as (_ & _ & _ & H).
  apply (H _ false). reflexivity.
Defined.

Section OptionalUndefined.

Variable L : library.

(** [a | b | undefined], read from an optional property, admits what
    [a | b] read from an optional property admits. *)
Lemma assignable_union_undefined_nested (t a b : ty) :
  assignable L t (read_type true (a :|: b :|: TUndefined))
  = assignable L t (read_type true (a :|: b)).
Proof.
  cbn [read_type].
  induction t;
    try (rewrite (assignable_unfold L _ ((a :|: b :|: TUndefined) :|: TUndefined)),
                 (assignable_unfold L _ ((a :|: b) :|: TUndefined));
         cbn [assignable_step]; reflexivity).
  all: try (rewrite (assignable_unfold L _ ((a :|: b :|: TUndefined) :|: TUndefined)),
                    (assignable_unfold L _ ((a :|: b) :|: TUndefined));
            cbn [assignable_step];
            rewrite (assignable_unfold L _ (a :|: b :|: TUndefined)),
                    (assignable_unfold L _ (a :|: b));
            cbn [assignable_step];
            rewrite (assignable_unfold L _ (b :|: TUndefined));
            cbn [assignable_step];
            match goal with
            | |- (?x || (?y || ?z)) || ?z = (?x || ?y) || ?z =>
                destruct x, y, z; reflexivity
            end).
  rewrite (assignable_unfold L _ ((a :|: b :|: TUndefined) :|: TUndefined)),
          (assignable_unfold L _ ((a :|: b) :|: TUndefined)).
  cbn [assignable_step]. now rewrite IHt1, IHt2.
Qed.

Lemma field_ok_optional_number (v : bool * ty) :
  field_ok L v (true, TNumber :|: TUndefined) = field_ok L v (true, TNumber).
Proof.
  unfold field_ok. cbn [fst snd]. f_equal. apply assignable_optional_undefined.
Qed.

Lemma field_ok_optional_key (v : bool * ty) :
  field_ok L v (true, TString :|: TNumber :|: TUndefined)
  = field_ok L v (true, TString :|: TNumber).
Proof.
  unfold field_ok. cbn [fst snd]. f_equal. apply assignable_union_undefined_nested.
Qed.

End OptionalUndefined.

(** X10.  The plugin cells declare their optional [height], [width],
    [columnKey] and [rowIndex] without [| undefined] where [CellProps]
    writes it; the declarations differ and admit the same supplied
    properties. *)
Theorem plugin_optionals_match_cell_props
        (L : library) (i : interface) (n : string) (d d' : bool * ty) :
  In i [ FixedDataTable.Plugins.ResizeCellProps;
         FixedDataTable.Plugins.ReorderCellProps ] ->
  In n [ "height"; "width"; "columnKey"; "rowIndex" ] ->
  lookup n (i_own FixedDataTable.CellProps) = Some d ->
  lookup n (i_own i) = Some d' ->
  d <> d' /\ forall v, field_ok L v d = field_ok L v d'.
Proof.
  intros Hi Hn Hd Hd'. cbn [In] in Hi, Hn.
  destruct Hi as [<-|[<-|[]]];
    repeat (destruct Hn as [<-|Hn];
            [vm_compute in Hd, Hd';
             try discriminate;
             inversion Hd; inversion Hd'; subst;
             (split; [discriminate|]);
             intros v;
             first [apply field_ok_optional_number|apply field_ok_optional_key]|]);
    contradiction.
Qed.

Lemma plugin_optionals_match_cell_props_witness :
  (true, TNumber :|: TUndefined) <> (true, TNumber)
  /\ forall v,
       field_ok sample_library v (true, TNumber :|: TUndefined)
       = field_ok sample_library v (true, TNumber).
Proof.
  apply (plugin_optionals_match_cell_props
           sample_library FixedDataTable.Plugins.ReorderCellProps "rowIndex");
    [cbn; tauto|cbn; tauto|reflexivity|reflexivity].
Defined.



(** ** Callbacks in general *)


